(** * rDSN replica evolution layer: duplication coordinator and split manager

    A shallow embedding of

    - [replica_duplicator] (constructor, destructor, [init_metrics_timer]
      and the timer task it enqueues, [start], [to_string],
      [update_status_if_needed], [update_progress], [verify_start_decree],
      [get_max_gced_decree]), and
    - the state held by [replica_split_manager]
      ([_child_gpid], [_child_init_ballot], [_partition_version] and their
      accessors), with the parent side of the split protocol, whose
      functions the header only declares, modelled from the design document,

    together with the properties the design document states about them.

    Conventions.  [decree] and [ballot] are [int64_t], [dupid_t] and the two
    halves of a [gpid] are [int32_t]; they are carried as [Z].  The functions
    below only compare, copy and take maxima of such values, so no
    wrap-around arises; the exception is the metrics timer task, whose two
    subtractions are written with their wrap-around.  A failed [dassert_replica] halts the process: the functions that
    can assert return a [result], and [Fatal] carries the assertion that
    fired.  Calls into collaborators (logging, the task pipeline, the timer)
    are recorded, in program order, in the [_calls] field of the coordinator. *)

From stdpp Require Import gmap strings list.
From Stdlib Require Import ZArith Lia.

Local Open Scope Z_scope.

(** ** Value types *)

Abbreviation decree := Z (only parsing).
Abbreviation ballot := Z (only parsing).
Abbreviation dupid_t := Z (only parsing).

(** Modelled from the spec: [dsn::gpid], declared in a header that is not
    among the files at hand; a partition identity is the pair of an
    application id and a partition index, read here through
    [get_app_id()] and [get_partition_index()]. *)
Record gpid : Type := mk_gpid {
  get_app_id : Z;
  get_partition_index : Z
}.

#[global] Instance gpid_eq_dec : EqDecision gpid.
Proof. solve_decision. Defined.

(** Modelled from the spec: [duplication_status::type], declared in a
    generated header that is not among the files at hand.  The status of a
    task is running ([DS_START]) or paused ([DS_PAUSE]), the two enumerators
    [replica_duplicator] names; any other status that may be requested is
    kept as [DS_OTHER] with a tag telling such values apart. *)
Inductive duplication_status : Type :=
| DS_START
| DS_PAUSE
| DS_OTHER (tag : nat).

#[global] Instance duplication_status_eq_dec : EqDecision duplication_status.
Proof. solve_decision. Defined.

(** Modelled from the spec: [duplication_progress], declared in
    [replica_duplicator.h], which is not among the files at hand: the
    watermark pair, with the field names [update_progress] uses. *)
Record duplication_progress : Type := mk_progress {
  last_decree : decree;
  confirmed_decree : decree
}.

(** Modelled from the spec: [duplication_entry], the task descriptor sent by
    the meta server, declared in a generated header that is not among the
    files at hand: task id, remote cluster address, status and the
    confirmed decree per partition, under the field names the constructor
    reads.  [progress] is a map from partition index to confirmed decree,
    searched with [find]. *)
Record duplication_entry : Type := mk_entry {
  dupid : dupid_t;
  status : duplication_status;
  remote_address : string;
  progress : gmap Z Z
}.

(** Modelled from the spec: the owning replica ([replica.h] is not among the
    files at hand), as far as the coordinator consumes it: its identity, the
    name of its application, its last committed decree and its private log's
    [max_gced_decree].  The replica outlives and changes independently of
    the coordinator, so every function that dereferences [_replica] takes the
    replica's current state as an argument instead of a copy made at
    construction. *)
Record replica : Type := mk_replica {
  rep_gpid : gpid;
  rep_app_name : string;
  rep_last_committed_decree : decree;
  (** [private_log()->max_gced_decree(gpid)] *)
  rep_plog_max_gced_decree : gpid -> decree
}.

(** ** Assertions and results *)

(** The assertions of [replica_duplicator], by the message they print. *)
Inductive assertion : Type :=
| invalid_duplication_status (st : duplication_status)
| progress_entry_not_found
| never_decrease_confirmed_decree (new old : decree)
| last_decree_behind_confirmed (last confirmed : decree)
| unexpected_duplication_status (st : duplication_status).

Inductive result (A : Type) : Type :=
| Ok (a : A)
| Fatal (why : assertion).
Arguments Ok {A} a.
Arguments Fatal {A} why.

(** Sequencing stops at the first assertion that fires. *)
#[global] Instance result_ret : MRet result := fun A a => Ok a.
#[global] Instance result_bind : MBind result := fun A B k m =>
  match m with
  | Ok a => k a
  | Fatal why => Fatal why
  end.

Definition is_fatal {A : Type} (m : result A) : bool :=
  match m with Ok _ => false | Fatal _ => true end.

(** Modelled from the spec: [dassert_replica(x, ...)], a fatal,
    process-visible assertion; the macro is declared in a header that is not
    among the files at hand.  As its uses in [replica_duplicator] show, the
    first argument is the asserted expression and the rest is the message;
    when the expression is false the message is logged and the process
    halts. *)
Definition dassert_replica (x : bool) (why : assertion) : result unit :=
  if x then Ok tt else Fatal why.

(** Modelled from the spec: [dassert(x, ...)], the same assertion with a
    printf-style message and without the replica's name in front; declared
    in a header that is not among the files at hand. *)
Definition dassert (x : bool) (why : assertion) : result unit :=
  if x then Ok tt else Fatal why.

(** A string literal used where a condition is expected: the array decays to
    a non-null [const char *], which converts to [true]. *)
Definition literal_as_condition (lit : string) : bool := true.

(** Modelled from the spec: the error codes [verify_start_decree] can
    return, success and the corruption class; [error_code] is declared
    outside the files at hand. *)
Inductive error_code : Type := ERR_OK | ERR_CORRUPTION.

(** The four decrees the message of [verify_start_decree] prints. *)
Record truncated_log_message : Type := mk_truncated {
  msg_max_gced_decree : decree;
  msg_start_decree : decree;
  msg_confirmed_decree : decree;
  msg_last_decree : decree
}.

(** Modelled from the spec: [error_s], an explicit result value, declared
    outside the files at hand: [error_s::ok()], or [error_s::make] of a code
    and a message. *)
Inductive error_s : Type :=
| error_s_ok
| error_s_make (code : error_code) (msg : truncated_log_message).

Definition error_s_code (e : error_s) : error_code :=
  match e with
  | error_s_ok => ERR_OK
  | error_s_make c _ => c
  end.

Definition error_s_is_ok (e : error_s) : bool :=
  match e with error_s_ok => true | error_s_make _ _ => false end.

(** ** The status document *)

(** A [rapidjson::Document] holding an object: its members in the order
    [AddMember] appended them. *)
Inductive json_value : Type :=
| JInt (z : Z)
| JString (s : string).

Definition json_object := list (string * json_value).

Definition AddMember (doc : json_object) (name : string) (v : json_value) : json_object :=
  doc ++ [(name, v)].

Definition member_names (doc : json_object) : list string := map fst doc.

Fixpoint FindMember (doc : json_object) (name : string) : option json_value :=
  match doc with
  | [] => None
  | (k, v) :: rest => if decide (k = name) then Some v else FindMember rest name
  end.

(** [rapidjson::StringRef] given only a character pointer measures it with [strlen]:
    the referenced text stops before the first NUL character. *)
Fixpoint c_str (s : string) : string :=
  match s with
  | EmptyString => EmptyString
  | String c rest => if decide (c = Ascii.zero) then EmptyString else String c (c_str rest)
  end.

(** ** The duplication coordinator *)

(** The three stages the constructor creates. *)
Inductive stage : Type := load_mutation | ship_mutation | load_from_private_log.

Inductive task_code : Type := LPC_REPLICATION_LOW | LPC_REPLICATION_LONG_LOW.

(** The lines [replica_duplicator] logs, with the values they print. *)
Inductive log_line : Type :=
| log_initialize (id : dupid_t) (meta_confirmed_decree : decree)
| log_starting (dup : string) (last confirmed max_gced : decree)
| log_pausing (dup : string)
| log_closing (dup : string).

(** Calls into collaborators. *)
Inductive call : Type :=
| call_ddebug (line : log_line)
| call_init_app_counter (name : string) (at_gpid : gpid)
| call_enqueue_timer (pool : task_code) (interval_seconds : Z)
| call_cancel_timer (wait_until_finished : bool)
| call_run_pipeline
| call_pause
| call_wait_all
| call_clear_counter (name : string).

Record replica_duplicator : Type := mk_duplicator {
  (** [replica_base::get_gpid()], copied from the replica at construction *)
  _gpid : gpid;
  _id : dupid_t;
  _remote_cluster_address : string;
  _status : duplication_status;
  _progress : duplication_progress;
  _last_recorded_confirmed_decree : decree;
  (** the pool of the pipeline's own tasks and the links between stages,
      each with the pool its source stage runs on *)
  _thread_pool : task_code;
  _links : list (stage * task_code * stage);
  _calls : list call
}.

Definition set_status (d : replica_duplicator) (st : duplication_status) : replica_duplicator :=
  mk_duplicator (_gpid d) (_id d) (_remote_cluster_address d) st (_progress d)
                (_last_recorded_confirmed_decree d) (_thread_pool d) (_links d) (_calls d).

Definition set_progress (d : replica_duplicator) (p : duplication_progress) : replica_duplicator :=
  mk_duplicator (_gpid d) (_id d) (_remote_cluster_address d) (_status d) p
                (_last_recorded_confirmed_decree d) (_thread_pool d) (_links d) (_calls d).

Definition set_last_recorded (d : replica_duplicator) (c : decree) : replica_duplicator :=
  mk_duplicator (_gpid d) (_id d) (_remote_cluster_address d) (_status d) (_progress d)
                c (_thread_pool d) (_links d) (_calls d).

Definition set_pipeline (d : replica_duplicator) (pool : task_code)
    (links : list (stage * task_code * stage)) : replica_duplicator :=
  mk_duplicator (_gpid d) (_id d) (_remote_cluster_address d) (_status d) (_progress d)
                (_last_recorded_confirmed_decree d) pool links (_calls d).

Definition emit (d : replica_duplicator) (c : call) : replica_duplicator :=
  mk_duplicator (_gpid d) (_id d) (_remote_cluster_address d) (_status d) (_progress d)
                (_last_recorded_confirmed_decree d) (_thread_pool d) (_links d) (_calls d ++ [c]).

(** [progress()]: a snapshot of the pair (taken under the read lock). *)
Definition get_progress (d : replica_duplicator) : duplication_progress := _progress d.

(** [get_max_gced_decree]. *)
Definition get_max_gced_decree (r : replica) : decree :=
  rep_plog_max_gced_decree r (rep_gpid r).

Definition METRICS_UPDATE_INTERVAL : Z := 10.

Section Duplicator.

(** Declared outside this file: the printable name of a status, and the
    text [rapidjson::Writer] produces for a document. *)
Variable duplication_status_to_string : duplication_status -> string.
Variable Writer : json_object -> string.

(** The document [to_string] fills in. *)
Definition to_string_document (r : replica) (d : replica_duplicator) : json_object :=
  let doc : json_object := [] in
  let doc := AddMember doc "dupid" (JInt (_id d)) in
  let doc := AddMember doc "status" (JString (c_str (duplication_status_to_string (_status d)))) in
  let doc := AddMember doc "remote" (JString (c_str (_remote_cluster_address d))) in
  let doc := AddMember doc "confirmed" (JInt (confirmed_decree (_progress d))) in
  let doc := AddMember doc "app" (JString (rep_app_name r)) in
  doc.

Definition to_string (r : replica) (d : replica_duplicator) : string :=
  Writer (to_string_document r d).

Definition init_metrics_timer (d : replica_duplicator) : replica_duplicator :=
  let d := emit d (call_init_app_counter "dup.pending_duplicate_count@" (_gpid d)) in
  let d := emit d (call_init_app_counter "dup.increased_confirmed_decree@" (_gpid d)) in
  let d := set_last_recorded d (confirmed_decree (_progress d)) in
  emit d (call_enqueue_timer LPC_REPLICATION_LOW METRICS_UPDATE_INTERVAL).

Definition start (r : replica) (d : replica_duplicator) : replica_duplicator :=
  let d := emit d (call_ddebug (log_starting (to_string r d)
                                             (last_decree (_progress d))
                                             (confirmed_decree (_progress d))
                                             (get_max_gced_decree r))) in
  emit d call_run_pipeline.

Definition pause (d : replica_duplicator) : replica_duplicator :=
  emit d call_pause.

(** The destructor. *)
Definition replica_duplicator_delete (r : replica) (d : replica_duplicator)
    : replica_duplicator :=
  let d := emit d (call_cancel_timer true) in
  let d := pause d in
  let d := emit d call_wait_all in
  let d := emit d (call_ddebug (log_closing (to_string r d))) in
  emit d (call_clear_counter "dup.pending_duplicate_count").

(** The constructor. *)
Definition replica_duplicator_new (ent : duplication_entry) (r : replica)
    : result replica_duplicator :=
  dassert_replica (bool_decide (status ent = DS_START) || bool_decide (status ent = DS_PAUSE))
                  (invalid_duplication_status (status ent));;
  let it := progress ent !! get_partition_index (rep_gpid r) in
  dassert_replica (bool_decide (is_Some it)) progress_entry_not_found;;
  match it with
  | None => Fatal progress_entry_not_found (* not reached: the assertion above fired *)
  | Some second =>
      let d := mk_duplicator (rep_gpid r) (dupid ent) (remote_address ent) (status ent)
                             (mk_progress second second) 0 LPC_REPLICATION_LOW [] [] in
      let d := emit d (call_ddebug (log_initialize (_id d) second)) in
      let d := init_metrics_timer d in
      (* load -> ship -> load, and the forked private-log loader -> ship *)
      let d := set_pipeline d LPC_REPLICATION_LOW
                 [ (load_mutation, LPC_REPLICATION_LOW, ship_mutation);
                   (ship_mutation, LPC_REPLICATION_LOW, load_mutation);
                   (load_from_private_log, LPC_REPLICATION_LONG_LOW, ship_mutation) ] in
      if decide (_status d = DS_START) then Ok (start r d) else Ok d
  end.

Definition update_status_if_needed (r : replica) (d : replica_duplicator)
    (next_status : duplication_status) : result replica_duplicator :=
  if decide (_status d = next_status) then Ok d
  else
    let d := set_status d next_status in
    if decide (next_status = DS_START) then Ok (start r d)
    else if decide (next_status = DS_PAUSE) then
      let d := emit d (call_ddebug (log_pausing (to_string r d))) in
      Ok (pause d)
    else
      dassert (literal_as_condition "unexpected duplication status (%s)")
              (unexpected_duplication_status next_status);;
      Ok d.

Definition update_progress (d : replica_duplicator) (p : duplication_progress)
    : result replica_duplicator :=
  dassert_replica ((confirmed_decree p <=? 0)
                   || (confirmed_decree (_progress d) <=? confirmed_decree p))
                  (never_decrease_confirmed_decree (confirmed_decree p)
                                                   (confirmed_decree (_progress d)));;
  let d := set_progress d (mk_progress (last_decree (_progress d))
                             (Z.max (confirmed_decree (_progress d)) (confirmed_decree p))) in
  let d := set_progress d (mk_progress (Z.max (last_decree (_progress d)) (last_decree p))
                             (confirmed_decree (_progress d))) in
  dassert_replica (confirmed_decree (_progress d) <=? last_decree (_progress d))
                  (last_decree_behind_confirmed (last_decree (_progress d))
                                                (confirmed_decree (_progress d)));;
  Ok d.

Definition verify_start_decree (r : replica) (d : replica_duplicator)
    (start_decree : decree) : error_s :=
  let confirmed := confirmed_decree (get_progress d) in
  let last := last_decree (get_progress d) in
  let max_gced_decree := get_max_gced_decree r in
  if max_gced_decree >=? start_decree then
    error_s_make ERR_CORRUPTION (mk_truncated max_gced_decree start_decree confirmed last)
  else error_s_ok.

(** A sequence of [update_progress] calls; the coordinator after each call
    is listed, and the run stops at the first assertion that fires. *)
Fixpoint update_progress_all (d : replica_duplicator) (ps : list duplication_progress)
    : result (list replica_duplicator) :=
  match ps with
  | [] => Ok []
  | p :: ps' =>
      d' ← update_progress d p;
      rest ← update_progress_all d' ps';
      Ok (d' :: rest)
  end.

(** The coordinator on which call number [i] (from 0) of such a run is made. *)
Definition state_before (d : replica_duplicator) (ds : list replica_duplicator) (i : nat)
    : replica_duplicator :=
  match i with
  | O => d
  | S j => default d (ds !! j)
  end.

End Duplicator.

(** ** The split manager *)

Module Split.

(** The fields of [replica_split_manager] and their in-class accessors. *)
Record replica_split_manager : Type := mk_manager {
  (** [gpid(app_id, pidx + old_partition_count)] for a parent in a split;
      [app_id = 0] otherwise *)
  _child_gpid : gpid;
  (** ballot when the split started; [0] when not in a split *)
  _child_init_ballot : ballot;
  (** [partition_count - 1] normally, [-1] when client requests are rejected *)
  _partition_version : Z
}.

Definition get_child_gpid (m : replica_split_manager) : gpid := _child_gpid m.
Definition set_child_gpid (m : replica_split_manager) (pid : gpid) : replica_split_manager :=
  mk_manager pid (_child_init_ballot m) (_partition_version m).

(** The member initialisers [_child_gpid{0, 0}] and [_child_init_ballot{0}]. *)
Definition null_gpid : gpid := mk_gpid 0 0.
Definition no_split_ballot : ballot := 0.

(** Modelled from the spec: the parent-side split protocol.  The header
    declares [on_add_child], [parent_handle_child_catch_up],
    [parent_check_sync_point_commit], [register_child_on_meta],
    [on_register_child_on_meta_reply], [parent_check_states] and
    [parent_cleanup_split_context]; their bodies are in no file at hand.
    The states are the five the design document names for the parent. *)
Inductive split_phase : Type :=
| Idle
| PreparingChild
| WaitingCatchUp
| Registering
| Active.

(** What the helpers [get_ballot()] and [last_committed_decree()] return
    when a step runs: they read the owning replica, never a cached copy. *)
Record observation : Type := mk_observation {
  obs_ballot : ballot;
  obs_last_committed_decree : decree
}.

(** Modelled from the spec: a parent partition, its split manager and the
    protocol state of the current attempt. *)
Record parent : Type := mk_parent {
  manager : replica_split_manager;
  phase : split_phase;
  parent_gpid : gpid;
  partition_count : Z;
  sync_point : decree
}.

(** Modelled from the spec: what reaches the parent: the group-check
    instruction, which names the new child partition, the dispatch of the state transfer with the sync point it fixes, the
    child's catch-up notification, and the meta server's reply to a
    register-child request (a timeout counts as a failure). *)
Inductive event : Type :=
| group_check_add_child (child : gpid)
| transfer_dispatched (first_synchronous_decree : decree)
| notify_catch_up (child_ballot : ballot)
| register_child_reply (success : bool) (new_partition_count : Z).

(** Modelled from the spec: what the parent sends. *)
Inductive action : Type :=
| spawn_child (child : gpid) (init_ballot : ballot)
| notify_catch_up_response (ok : bool)
| register_child_request (child : gpid) (b : ballot).

Inductive entry : Type :=
| received (e : event) (o : observation)
| sent (a : action).

Definition in_progress (p : parent) : bool :=
  match phase p with
  | PreparingChild | WaitingCatchUp | Registering => true
  | Idle | Active => false
  end.

(** Modelled from the spec: [parent_check_states], the ballot check made
    before every transition of an attempt. *)
Definition parent_check_states (p : parent) (o : observation) : bool :=
  obs_ballot o =? _child_init_ballot (manager p).

(** Modelled from the spec: [parent_cleanup_split_context] resets the split
    context: the child identity becomes the null identity, the recorded
    ballot is forgotten and serving continues under the old partition
    count. *)
Definition parent_cleanup_split_context (p : parent) : parent :=
  mk_parent (mk_manager null_gpid no_split_ballot (partition_count p - 1))
            Idle (parent_gpid p) (partition_count p) (sync_point p).

(** Modelled from the spec: [on_add_child], Idle -> PreparingChild: the
    parent records the child the instruction names and the ballot it starts
    the split at, and spawns the child with that ballot. *)
Definition on_add_child (p : parent) (child : gpid) (o : observation)
    : parent * list action :=
  let m := set_child_gpid (manager p) child in
  let m := mk_manager (_child_gpid m) (obs_ballot o) (_partition_version m) in
  (mk_parent m PreparingChild (parent_gpid p) (partition_count p) (sync_point p),
   [spawn_child child (obs_ballot o)]).

(** Modelled from the spec: [register_child_on_meta], WaitingCatchUp ->
    Registering; the partition version is the sentinel until the reply. *)
Definition register_child_on_meta (p : parent) (b : ballot) : parent * list action :=
  let m := manager p in
  (mk_parent (mk_manager (_child_gpid m) (_child_init_ballot m) (-1))
             Registering (parent_gpid p) (partition_count p) (sync_point p),
   [register_child_request (_child_gpid m) b]).

(** Modelled from the spec: [parent_handle_child_catch_up] with
    [parent_check_sync_point_commit]: success is answered, and the child
    registered, once the sync point has committed. *)
Definition parent_handle_child_catch_up (p : parent) (child_ballot : ballot)
    (o : observation) : parent * list action :=
  if (child_ballot =? obs_ballot o) && (sync_point p <=? obs_last_committed_decree o) then
    let '(p', out) := register_child_on_meta p (obs_ballot o) in
    (p', notify_catch_up_response true :: out)
  else (p, [notify_catch_up_response false]).

(** Modelled from the spec: [on_register_child_on_meta_reply], Registering
    -> Active on success, -> Idle otherwise. *)
Definition on_register_child_on_meta_reply (p : parent) (success : bool)
    (new_partition_count : Z) : parent * list action :=
  if success then
    (mk_parent (mk_manager null_gpid no_split_ballot (new_partition_count - 1))
               Active (parent_gpid p) new_partition_count (sync_point p), [])
  else (parent_cleanup_split_context p, []).

(** Modelled from the spec: one step of the parent. *)
Definition step (p : parent) (e : event) (o : observation) : parent * list action :=
  if in_progress p && negb (parent_check_states p o) then
    (parent_cleanup_split_context p,
     match e with
     | notify_catch_up _ => [notify_catch_up_response false]
     | _ => []
     end)
  else
    match phase p, e with
    | (Idle | Active), group_check_add_child child => on_add_child p child o
    | PreparingChild, transfer_dispatched d =>
        (mk_parent (manager p) WaitingCatchUp (parent_gpid p) (partition_count p) d, [])
    | WaitingCatchUp, notify_catch_up child_ballot =>
        parent_handle_child_catch_up p child_ballot o
    | Registering, register_child_reply success n =>
        on_register_child_on_meta_reply p success n
    | _, notify_catch_up _ => (p, [notify_catch_up_response false])
    | _, _ => (p, [])
    end.

(** A run: the events with the replica state observed at each, and the
    log of everything received and sent, in order. *)
Fixpoint run (p : parent) (es : list (event * observation)) : parent * list entry :=
  match es with
  | [] => (p, [])
  | (e, o) :: es' =>
      let s := step p e o in
      let r := run (fst s) es' in
      (fst r, received e o :: map sent (snd s) ++ snd r)
  end.

End Split.

(** ** The metrics timer and runs of the coordinator *)

(** 64-bit two's complement: the value an [int64_t] holds after an
    operation whose mathematical result is [z]. *)
Definition wrap64 (z : Z) : Z := (z + 2 ^ 63) mod 2 ^ 64 - 2 ^ 63.

Definition int64_range (z : Z) : Prop := - 2 ^ 63 <= z < 2 ^ 63.

(** What one tick of the metrics timer sets the two counters to. *)
Record metrics_sample : Type := mk_sample {
  pending_duplicate_count : Z;
  increased_confirmed_decree : Z
}.

(** The task [init_metrics_timer] enqueues, run every
    [METRICS_UPDATE_INTERVAL] seconds: it sets both counters and remembers
    the confirmed decree it saw. *)
Definition metrics_timer_tick (r : replica) (d : replica_duplicator)
    : replica_duplicator * metrics_sample :=
  let pending := wrap64 (rep_last_committed_decree r - confirmed_decree (_progress d)) in
  let p := get_progress d in
  let increased := wrap64 (confirmed_decree p - _last_recorded_confirmed_decree d) in
  (set_last_recorded d (confirmed_decree p), mk_sample pending increased).

(** Progress updates and timer ticks, in the order they run on the
    coordinator. *)
Inductive operation : Type :=
| op_update_progress (p : duplication_progress)
| op_timer_tick (r : replica).

(** A run of such operations: the coordinator at the end and the samples the
    ticks produced, oldest first; it stops at the first assertion that
    fires. *)
Fixpoint run_operations (d : replica_duplicator) (ops : list operation)
    : result (replica_duplicator * list metrics_sample) :=
  match ops with
  | [] => Ok (d, [])
  | op_update_progress p :: ops' =>
      d' ← update_progress d p;
      run_operations d' ops'
  | op_timer_tick r :: ops' =>
      let '(d', sample) := metrics_timer_tick r d in
      res ← run_operations d' ops';
      Ok (fst res, sample :: snd res)
  end.

Definition sum_increased (samples : list metrics_sample) : Z :=
  foldr (fun sample acc => increased_confirmed_decree sample + acc) 0 samples.

(** The coordinator a run of [update_progress] calls ends with. *)
Definition final_state (d : replica_duplicator) (ds : list replica_duplicator)
    : replica_duplicator :=
  default d (last ds).

(** What the pipeline was last told: [Some true] after [run_pipeline],
    [Some false] after [pause], [None] while neither has been called. *)
Definition pipeline_told (st : option bool) (c : call) : option bool :=
  match c with
  | call_run_pipeline => Some true
  | call_pause => Some false
  | _ => st
  end.

Definition pipeline_state (cs : list call) : option bool :=
  foldl pipeline_told None cs.

Definition is_timer_call (c : call) : bool :=
  match c with
  | call_enqueue_timer _ _ | call_cancel_timer _ => true
  | _ => false
  end.

Definition timer_calls (cs : list call) : list call := List.filter is_timer_call cs.

Definition running_or_paused (st : duplication_status) : bool :=
  match st with
  | DS_START | DS_PAUSE => true
  | DS_OTHER _ => false
  end.

Section DuplicatorRuns.

Variable duplication_status_to_string : duplication_status -> string.
Variable Writer : json_object -> string.

(** A sequence of [update_status_if_needed] calls, each with the replica as
    it is when the call is made. *)
Fixpoint update_status_all (d : replica_duplicator)
    (requests : list (replica * duplication_status)) : result replica_duplicator :=
  match requests with
  | [] => Ok d
  | (r, next_status) :: rest =>
      d' ← update_status_if_needed duplication_status_to_string Writer r d next_status;
      update_status_all d' rest
  end.

End DuplicatorRuns.

(** The pipeline runs exactly while the status is [DS_START]. *)
Definition pipeline_matches_status (d : replica_duplicator) : Prop :=
  running_or_paused (_status d) = true /\
  (pipeline_state (_calls d) = Some true <-> _status d = DS_START).

(** An operation that presents a [confirmed_decree] presents one an
    [int64_t] can hold. *)
Definition operation_in_range (op : operation) : Prop :=
  match op with
  | op_update_progress p => int64_range (confirmed_decree p)
  | op_timer_tick _ => True
  end.

(** The status the last of a sequence of requests asks for. *)
Definition last_requested (st : duplication_status)
    (requests : list (replica * duplication_status)) : duplication_status :=
  default st (snd <$> last requests).


(** ** Sample values *)

Definition sample_status_name (st : duplication_status) : string :=
  match st with
  | DS_START => "DS_START"
  | DS_PAUSE => "DS_PAUSE"
  | DS_OTHER _ => "DS_OTHER"
  end.

Definition sample_writer (doc : json_object) : string :=
  String.concat "," (member_names doc).

Definition sample_replica : replica :=
  mk_replica (mk_gpid 2 1) "temp" 105 (fun _ => 40).

Definition sample_entry (st : duplication_status) : duplication_entry :=
  mk_entry 7 st "remote-cluster" (<[1 := 100]> (<[0 := 90]> ∅)).

Definition sample_duplicator (last confirmed : decree) : replica_duplicator :=
  mk_duplicator (mk_gpid 2 1) 7 "remote-cluster" DS_START (mk_progress last confirmed)
                100 LPC_REPLICATION_LOW [] [].

(** A parent (partition 1 of app 2, 4 partitions) serving normally. *)
Definition sample_parent : Split.parent :=
  Split.mk_parent (Split.mk_manager Split.null_gpid Split.no_split_ballot 3)
                  Split.Idle (mk_gpid 2 1) 4 0.



(** ** Tactics *)

(** Closes a goal from [H : x ∈ [a; b; ...]] when [x] differs from every
    listed element by its constructor. *)
Ltac absurd_member H :=
  repeat (apply elem_of_cons in H as [H|H]; [discriminate H|]);
  apply elem_of_nil in H; destruct H.

(** ** Properties of the duplication coordinator *)

Section DuplicatorProperties.

Variable status_name : duplication_status -> string.
Variable writer : json_object -> string.

Local Abbreviation new := (replica_duplicator_new status_name writer).
Local Abbreviation update_status := (update_status_if_needed status_name writer).

(** The two assertions of [update_progress], as conditions on its arguments. *)
Lemma update_progress_Ok (d d' : replica_duplicator) (p : duplication_progress) :
  update_progress d p = Ok d' <->
  (confirmed_decree p <= 0 \/ confirmed_decree (_progress d) <= confirmed_decree p) /\
  Z.max (confirmed_decree (_progress d)) (confirmed_decree p)
    <= Z.max (last_decree (_progress d)) (last_decree p) /\
  d' = set_progress d
         (mk_progress (Z.max (last_decree (_progress d)) (last_decree p))
                      (Z.max (confirmed_decree (_progress d)) (confirmed_decree p))).
Proof.
  unfold update_progress, dassert_replica; cbn.
  destruct (confirmed_decree p <=? 0) eqn:E1;
    destruct (confirmed_decree (_progress d) <=? confirmed_decree p) eqn:E2;
    cbn;
    destruct (Z.max (confirmed_decree (_progress d)) (confirmed_decree p)
              <=? Z.max (last_decree (_progress d)) (last_decree p)) eqn:E3;
    cbn; split;
    try (intros [= <-]; repeat split; try lia; reflexivity);
    try discriminate;
    try (intros (H1 & H2 & ->); try reflexivity; exfalso; lia).
Qed.

Lemma update_progress_confirmed_monotone (d d' : replica_duplicator) (p : duplication_progress) :
  update_progress d p = Ok d' ->
  confirmed_decree (_progress d) <= confirmed_decree (_progress d') /\
  confirmed_decree (_progress d') <= last_decree (_progress d').
Proof.
  intros H. apply update_progress_Ok in H as (_ & Hle & ->). cbn. split; lia.
Qed.

(** C1 (amended).  A call whose [confirmed_decree] is positive and smaller
    than the one held fires the first assertion.  A smaller value that is
    zero or negative does not fire it; and whenever a call with a smaller
    value returns, the held [confirmed_decree] is unchanged: the smaller
    value is never applied. *)
Theorem update_progress_rejects_positive_regression
    (d : replica_duplicator) (p : duplication_progress) :
  confirmed_decree p < confirmed_decree (_progress d) ->
  (0 < confirmed_decree p ->
     update_progress d p =
       Fatal (never_decrease_confirmed_decree (confirmed_decree p)
                                              (confirmed_decree (_progress d)))) /\
  (confirmed_decree p <= 0 ->
     update_progress d p <>
       Fatal (never_decrease_confirmed_decree (confirmed_decree p)
                                              (confirmed_decree (_progress d)))) /\
  (forall d', update_progress d p = Ok d' ->
     confirmed_decree (_progress d') = confirmed_decree (_progress d)).
Proof.
  intros Hlt. repeat split.
  - intros Hpos. unfold update_progress, dassert_replica.
    replace (confirmed_decree p <=? 0) with false by (symmetry; apply Z.leb_gt; lia).
    replace (confirmed_decree (_progress d) <=? confirmed_decree p) with false
      by (symmetry; apply Z.leb_gt; lia).
    reflexivity.
  - intros Hle. unfold update_progress, dassert_replica.
    replace (confirmed_decree p <=? 0) with true by (symmetry; apply Z.leb_le; lia).
    cbn.
    destruct (Z.max (confirmed_decree (_progress d)) (confirmed_decree p)
              <=? Z.max (last_decree (_progress d)) (last_decree p)); cbn; discriminate.
  - intros d' H. apply update_progress_Ok in H as (_ & _ & ->). cbn. lia.
Qed.

(** C2.  A call that returns leaves each watermark at the maximum of the
    old and the presented value; over any sequence of calls that return,
    [confirmed_decree] never decreases from one call to the next and is at
    most [last_decree] after every call. *)
Theorem update_progress_takes_maxima :
  (forall d p d', update_progress d p = Ok d' ->
     confirmed_decree (_progress d')
       = Z.max (confirmed_decree (_progress d)) (confirmed_decree p) /\
     last_decree (_progress d')
       = Z.max (last_decree (_progress d)) (last_decree p)) /\
  (forall d ps ds, update_progress_all d ps = Ok ds ->
     length ds = length ps /\
     forall (i : nat) (di : replica_duplicator), ds !! i = Some di ->
       confirmed_decree (_progress (state_before d ds i))
         <= confirmed_decree (_progress di) /\
       confirmed_decree (_progress di) <= last_decree (_progress di)).
Proof.
  split.
  - intros d p d' H. apply update_progress_Ok in H as (_ & _ & ->). cbn. split; reflexivity.
  - intros d ps. revert d.
    induction ps as [|p ps IH]; intros d ds H; cbn in H.
    + injection H as <-. split; [reflexivity|]. intros i di Hi. destruct i; discriminate.
    + destruct (update_progress d p) as [d1|] eqn:E1; cbn in H; [|discriminate].
      destruct (update_progress_all d1 ps) as [rest|] eqn:E2; cbn in H; [|discriminate].
      injection H as <-.
      destruct (IH _ _ E2) as [Hlen Hrest].
      split; [cbn; congruence|].
      intros [|i] di Hi; cbn in Hi.
      * injection Hi as <-. cbn. apply (update_progress_confirmed_monotone _ _ _ E1).
      * destruct (Hrest i di Hi) as [Hmono Hinv]. split; [|exact Hinv].
        destruct i as [|j]; cbn in *; [exact Hmono|].
        destruct (rest !! j) as [dj|] eqn:Ej; cbn in *; [exact Hmono|].
        apply lookup_ge_None in Ej. apply lookup_lt_Some in Hi. lia.
Qed.

(** C3.  [verify_start_decree] reports corruption exactly when the private
    log's highest garbage-collected decree has reached the start decree, and
    succeeds when the start decree lies strictly above it. *)
Theorem verify_start_decree_corruption_iff
    (r : replica) (d : replica_duplicator) (start_decree : decree) :
  (error_s_code (verify_start_decree r d start_decree) = ERR_CORRUPTION
     <-> rep_plog_max_gced_decree r (rep_gpid r) >= start_decree) /\
  (rep_plog_max_gced_decree r (rep_gpid r) < start_decree ->
     verify_start_decree r d start_decree = error_s_ok).
Proof.
  unfold verify_start_decree, get_max_gced_decree.
  destruct (rep_plog_max_gced_decree r (rep_gpid r) >=? start_decree) eqn:E; cbn.
  - apply Z.geb_le in E. split; [split; [lia | reflexivity] | lia].
  - rewrite Z.geb_leb in E. apply Z.leb_gt in E.
    split; [split; [discriminate | lia] | reflexivity].
Qed.

(** What the constructor returns, by cases on its two assertions. *)
Lemma replica_duplicator_new_cases (ent : duplication_entry) (r : replica) :
  match new ent r with
  | Ok d =>
      (status ent = DS_START \/ status ent = DS_PAUSE) /\
      progress ent !! get_partition_index (rep_gpid r)
        = Some (confirmed_decree (_progress d)) /\
      last_decree (_progress d) = confirmed_decree (_progress d) /\
      _status d = status ent /\
      (call_run_pipeline ∈ _calls d <-> status ent = DS_START)
  | Fatal why =>
      (why = invalid_duplication_status (status ent) /\
       status ent <> DS_START /\ status ent <> DS_PAUSE) \/
      (why = progress_entry_not_found /\
       progress ent !! get_partition_index (rep_gpid r) = None)
  end.
Proof.
  unfold replica_duplicator_new, dassert_replica.
  destruct (status ent) as [| |tag] eqn:Est; cbn;
    destruct (progress ent !! get_partition_index (rep_gpid r)) as [v|] eqn:Ev; cbn;
    try (right; split; reflexivity);
    try (left; repeat split; congruence).
  - repeat split; auto. intros _. unfold start, emit; cbn. set_solver.
  - repeat split; auto; [|discriminate].
    unfold init_metrics_timer, emit; cbn. intros H. absurd_member H.
Qed.

(** C4.  A constructed coordinator holds, in both [last_decree] and
    [confirmed_decree], the confirmed decree the descriptor's progress map
    gives for the coordinator's partition. *)
Theorem replica_duplicator_new_seeds_progress
    (ent : duplication_entry) (r : replica) (d : replica_duplicator) :
  new ent r = Ok d ->
  last_decree (_progress d) = confirmed_decree (_progress d) /\
  progress ent !! get_partition_index (rep_gpid r) = Some (confirmed_decree (_progress d)) /\
  progress ent !! get_partition_index (rep_gpid r) = Some (last_decree (_progress d)).
Proof.
  intros H. pose proof (replica_duplicator_new_cases ent r) as Hc.
  rewrite H in Hc. destruct Hc as (_ & Hp & Hl & _). rewrite Hl. auto.
Qed.

(** C5 (the code at a status other than running and paused).  The last
    branch of [update_status_if_needed] asserts a string literal, which holds:
    the call returns, and the coordinator keeps the unexpected status. *)
Theorem update_status_if_needed_other_status_returns
    (r : replica) (d : replica_duplicator) (tag : nat) :
  exists d', update_status r d (DS_OTHER tag) = Ok d' /\
             _status d' = DS_OTHER tag /\ _calls d' = _calls d.
Proof.
  unfold update_status_if_needed.
  destruct (decide (_status d = DS_OTHER tag)) as [E|E].
  - exists d. auto.
  - exists (set_status d (DS_OTHER tag)). cbn. auto.
Qed.

(** C9.  The document [to_string] serialises has exactly five members, in
    this order: the task id, the status, the remote cluster address, the
    confirmed decree and the application name. *)
Theorem to_string_field_set (r : replica) (d : replica_duplicator) :
  to_string status_name writer r d = writer (to_string_document status_name r d) /\
  to_string_document status_name r d =
    [ ("dupid", JInt (_id d));
      ("status", JString (c_str (status_name (_status d))));
      ("remote", JString (c_str (_remote_cluster_address d)));
      ("confirmed", JInt (confirmed_decree (_progress d)));
      ("app", JString (rep_app_name r)) ] /\
  member_names (to_string_document status_name r d)
    = ["dupid"; "status"; "remote"; "confirmed"; "app"] /\
  NoDup (member_names (to_string_document status_name r d)) /\
  (forall name : string,
     is_Some (FindMember (to_string_document status_name r d) name)
       <-> name ∈ ["dupid"; "status"; "remote"; "confirmed"; "app"]).
Proof.
  split; [reflexivity|]. split; [reflexivity|]. split; [reflexivity|]. split.
  - cbn. apply (bool_decide_unpack _). vm_compute. exact I.
  - intros name. cbn.
    repeat (case_decide;
            [subst name; split; [intros _; repeat constructor | intros _; eauto]|]).
    split; [intros Hs; by apply is_Some_None in Hs|].
    intros Hin. repeat (apply elem_of_cons in Hin as [Hin|Hin]; [congruence|]).
    by apply elem_of_nil in Hin.
Qed.

(** C10.  Construction asserts unless the descriptor's status is running or
    paused and its progress map has an entry for the coordinator's
    partition; a constructed coordinator has had its pipeline started
    exactly when the descriptor's status is running. *)
Theorem replica_duplicator_new_preconditions (ent : duplication_entry) (r : replica) :
  (is_fatal (new ent r) = true <->
     ~ ((status ent = DS_START \/ status ent = DS_PAUSE) /\
        is_Some (progress ent !! get_partition_index (rep_gpid r)))) /\
  (forall d, new ent r = Ok d ->
     (call_run_pipeline ∈ _calls d <-> status ent = DS_START)).
Proof.
  pose proof (replica_duplicator_new_cases ent r) as Hc.
  destruct (new ent r) as [d|why]; cbn.
  - destruct Hc as (Hs & Hp & _ & _ & Hrun). split.
    + split; [discriminate|]. intros Hn. exfalso. apply Hn. split; [exact Hs|]. eauto.
    + intros d0 [= <-]. exact Hrun.
  - split; [|discriminate]. split; [|reflexivity]. intros _ [Hs Hp].
    destruct Hc as [(_ & H1 & H2)|(_ & Hn)].
    + destruct Hs; contradiction.
    + rewrite Hn in Hp. by destruct Hp.
Qed.

End DuplicatorProperties.

(** ** Properties of the split manager *)

Module SplitProperties.
Import Split.








(** The only step that sends a register-child request. *)
Lemma step_sends_register (p : parent) (e : event) (o : observation)
    (child : gpid) (b : ballot) :
  register_child_request child b ∈ snd (step p e o) ->
  e = notify_catch_up b /\
  phase p = WaitingCatchUp /\
  obs_ballot o = b /\
  _child_init_ballot (manager p) = b /\
  sync_point p <= obs_last_committed_decree o /\
  child = get_child_gpid (manager p) /\
  snd (step p e o) = [notify_catch_up_response true; register_child_request child b].
Proof.
  destruct p as [m ph pg pc sp].
  unfold step, parent_check_states, parent_handle_child_catch_up,
    on_register_child_on_meta_reply, on_add_child, register_child_on_meta, in_progress.
  destruct ph, e; cbn;
    repeat match goal with
           | |- context [if ?c then _ else _] => destruct c eqn:?; cbn
           end;
    intros H; try (absurd_member H).
  apply negb_false_iff, Z.eqb_eq in Heqb0.
  apply andb_true_iff in Heqb1 as [E1%Z.eqb_eq E2%Z.leb_le].
  apply elem_of_cons in H as [H|H]; [discriminate H|].
  apply list_elem_of_singleton in H. injection H as -> ->.
  unfold get_child_gpid. repeat split; auto; congruence.
Qed.

Lemma sent_in_map (a : action) (out : list action) :
  sent a ∈ map sent out -> a ∈ out.
Proof.
  induction out as [|a' out IH]; cbn; intros H.
  - by apply elem_of_nil in H.
  - apply elem_of_cons in H as [[= ->]|H]; apply elem_of_cons; auto.
Qed.

(** C8.  In the log of any run, a register-child request comes directly
    after the receipt of a catch-up notification and the parent's positive
    answer to it; at that receipt the parent was waiting for catch-up, the
    notification carried the ballot of the attempt, which was also the
    current one, and the sync point had committed.  The request names the
    recorded child and carries that ballot. *)
Theorem register_only_after_catch_up
    (p : parent) (es : list (event * observation))
    (pre post : list entry) (child : gpid) (b : ballot) :
  snd (run p es) = pre ++ sent (register_child_request child b) :: post ->
  exists (es1 es2 : list (event * observation)) (o : observation),
    es = es1 ++ (notify_catch_up b, o) :: es2 /\
    pre = snd (run p es1)
            ++ [received (notify_catch_up b) o; sent (notify_catch_up_response true)] /\
    phase (fst (run p es1)) = WaitingCatchUp /\
    obs_ballot o = b /\
    _child_init_ballot (manager (fst (run p es1))) = b /\
    sync_point (fst (run p es1)) <= obs_last_committed_decree o /\
    child = get_child_gpid (manager (fst (run p es1))).
Proof.
  revert p pre. induction es as [|[e o] es IH]; intros p pre Hlog; cbn in Hlog.
  { destruct pre; discriminate. }
  destruct pre as [|x pre]; [discriminate|].
  injection Hlog as <- Hlog.
  apply app_eq_inv in Hlog as [(k & Hout & Hrest)|(k & Hpre & Hrest)].
  - (* the request lies within, or right after, what this step sent *)
    destruct k as [|y k].
    + (* it opens the log of the remaining events *)
      cbn in Hrest. rewrite app_nil_r in Hout.
      destruct (IH (fst (step p e o)) [] (eq_sym Hrest))
        as (es1 & es2 & o1 & -> & Hp & Hrun).
      destruct (snd (run (fst (step p e o)) es1)); discriminate.
    + injection Hrest as <- Hpost.
      assert (Hin : register_child_request child b ∈ snd (step p e o)).
      { apply sent_in_map. rewrite Hout. apply elem_of_app. right. apply elem_of_cons. by left. }
      destruct (step_sends_register _ _ _ _ _ Hin) as (-> & Hph & Hb & Hib & Hsp & Hch & Hsent).
      rewrite Hsent in Hout. cbn in Hout.
      destruct pre as [|a [|a' pre]]; cbn in Hout; try discriminate.
      * exists [], es, o. cbn. injection Hout as <- _. repeat split; auto.
      * injection Hout as _ _ Hout. destruct pre; discriminate.
  - (* it lies in the log of the remaining events *)
    destruct (IH (fst (step p e o)) k Hrest)
      as (es1 & es2 & o1 & -> & -> & Hrun).
    exists ((e, o) :: es1), es2, o1. cbn. rewrite Hpre, <- app_assoc. auto.
Qed.

End SplitProperties.

(** ** The properties at sample values *)

(** C1, as first stated, fails: a progress whose [confirmed_decree] is [0]
    is presented to a coordinator holding [100]; the value is smaller, and
    the call returns, leaving the coordinator as it was. *)
Lemma update_progress_nonpositive_regression_returns :
  confirmed_decree (mk_progress 105 0) < confirmed_decree (_progress (sample_duplicator 105 100)) /\
  is_fatal (update_progress (sample_duplicator 105 100) (mk_progress 105 0)) = false /\
  update_progress (sample_duplicator 105 100) (mk_progress 105 0)
    = Ok (sample_duplicator 105 100).
Proof. split; [cbn; lia|]. split; reflexivity. Qed.

Lemma update_progress_rejects_positive_regression_witness :
  update_progress (sample_duplicator 105 100) (mk_progress 105 50)
    = Fatal (never_decrease_confirmed_decree 50 100).
Proof.
  apply (update_progress_rejects_positive_regression
           (sample_duplicator 105 100) (mk_progress 105 50)); cbn; lia.
Defined.

(** The scenario of the design document: a task created at decree 100, the
    loader reporting decree 105 read, then the remote acknowledging 105. *)
Lemma update_progress_takes_maxima_witness :
  update_progress_all (sample_duplicator 100 100) [mk_progress 105 (-1); mk_progress 105 105]
    = Ok [sample_duplicator 105 100; sample_duplicator 105 105] /\
  confirmed_decree
    (_progress (state_before (sample_duplicator 100 100)
                             [sample_duplicator 105 100; sample_duplicator 105 105] 1))
    <= confirmed_decree (_progress (sample_duplicator 105 105)) /\
  confirmed_decree (_progress (sample_duplicator 105 105))
    <= last_decree (_progress (sample_duplicator 105 105)).
Proof.
  split; [reflexivity|].
  apply (proj2 (proj2 update_progress_takes_maxima
                  (sample_duplicator 100 100)
                  [mk_progress 105 (-1); mk_progress 105 105]
                  [sample_duplicator 105 100; sample_duplicator 105 105]
                  eq_refl)
               1%nat (sample_duplicator 105 105) eq_refl).
Defined.

Lemma verify_start_decree_corruption_iff_witness :
  verify_start_decree sample_replica (sample_duplicator 105 100) 41 = error_s_ok.
Proof.
  apply (proj2 (verify_start_decree_corruption_iff
                  sample_replica (sample_duplicator 105 100) 41)).
  cbn. lia.
Defined.

Lemma replica_duplicator_new_seeds_progress_witness :
  exists d : replica_duplicator,
    replica_duplicator_new sample_status_name sample_writer (sample_entry DS_PAUSE) sample_replica
      = Ok d /\
    last_decree (_progress d) = confirmed_decree (_progress d) /\
    progress (sample_entry DS_PAUSE) !! 1 = Some (confirmed_decree (_progress d)) /\
    progress (sample_entry DS_PAUSE) !! 1 = Some (last_decree (_progress d)).
Proof.
  eexists. split; [reflexivity|].
  apply (replica_duplicator_new_seeds_progress
           sample_status_name sample_writer (sample_entry DS_PAUSE) sample_replica).
  reflexivity.
Defined.

Lemma replica_duplicator_new_preconditions_witness :
  exists d : replica_duplicator,
    replica_duplicator_new sample_status_name sample_writer (sample_entry DS_START) sample_replica
      = Ok d /\
    (call_run_pipeline ∈ _calls d <-> status (sample_entry DS_START) = DS_START).
Proof.
  eexists. split; [reflexivity|].
  apply (proj2 (replica_duplicator_new_preconditions
                  sample_status_name sample_writer (sample_entry DS_START) sample_replica)).
  reflexivity.
Defined.



Lemma register_only_after_catch_up_witness :
  exists (es1 es2 : list (Split.event * Split.observation)) (o : Split.observation),
    [ (Split.group_check_add_child (mk_gpid 2 5), Split.mk_observation 7 50);
      (Split.transfer_dispatched 51, Split.mk_observation 7 50);
      (Split.notify_catch_up 7, Split.mk_observation 7 50);
      (Split.notify_catch_up 7, Split.mk_observation 7 51) ]
      = es1 ++ (Split.notify_catch_up 7, o) :: es2 /\
    [ Split.received (Split.group_check_add_child (mk_gpid 2 5)) (Split.mk_observation 7 50);
      Split.sent (Split.spawn_child (mk_gpid 2 5) 7);
      Split.received (Split.transfer_dispatched 51) (Split.mk_observation 7 50);
      Split.received (Split.notify_catch_up 7) (Split.mk_observation 7 50);
      Split.sent (Split.notify_catch_up_response false);
      Split.received (Split.notify_catch_up 7) (Split.mk_observation 7 51);
      Split.sent (Split.notify_catch_up_response true) ]
      = snd (Split.run sample_parent es1)
          ++ [Split.received (Split.notify_catch_up 7) o;
              Split.sent (Split.notify_catch_up_response true)] /\
    Split.phase (fst (Split.run sample_parent es1)) = Split.WaitingCatchUp /\
    Split.obs_ballot o = 7 /\
    Split._child_init_ballot (Split.manager (fst (Split.run sample_parent es1))) = 7 /\
    Split.sync_point (fst (Split.run sample_parent es1)) <= Split.obs_last_committed_decree o /\
    mk_gpid 2 5 = Split.get_child_gpid (Split.manager (fst (Split.run sample_parent es1))).
Proof.
  apply (SplitProperties.register_only_after_catch_up sample_parent _ _ []).
  reflexivity.
Defined.

(** ** Further properties of [update_progress] *)

Lemma set_progress_own (d : replica_duplicator) :
  set_progress d (mk_progress (last_decree (_progress d)) (confirmed_decree (_progress d))) = d.
Proof. destruct d as [g i a s [l c] rec tp lk cs]. reflexivity. Qed.

Lemma foldr_max_init (a b : Z) (xs : list Z) :
  foldr Z.max (Z.max a b) xs = Z.max b (foldr Z.max a xs).
Proof. induction xs as [|x xs IH]; cbn; [lia|]. rewrite IH. lia. Qed.

Lemma foldr_max_Permutation (b : Z) (xs ys : list Z) :
  xs ≡ₚ ys -> foldr Z.max b xs = foldr Z.max b ys.
Proof.
  induction 1 as [|x xs ys _ IH|x y xs|xs ys zs _ IH1 _ IH2]; cbn.
  - reflexivity.
  - by rewrite IH.
  - lia.
  - by rewrite IH1.
Qed.

Lemma final_state_cons (d d1 : replica_duplicator) (rest : list replica_duplicator) :
  final_state d (d1 :: rest) = final_state d1 rest.
Proof. unfold final_state. rewrite last_cons. by destruct (last rest). Qed.

(** The coordinator after a run of [update_progress] calls that all return:
    the one before it, with each watermark raised to the largest value
    presented. *)
Lemma update_progress_all_closed_form
    (d : replica_duplicator) (ps : list duplication_progress) (ds : list replica_duplicator) :
  update_progress_all d ps = Ok ds ->
  final_state d ds =
    set_progress d
      (mk_progress (foldr Z.max (last_decree (_progress d)) (map last_decree ps))
                   (foldr Z.max (confirmed_decree (_progress d)) (map confirmed_decree ps))).
Proof.
  revert d ds. induction ps as [|p ps IH]; intros d ds H; cbn in H.
  - injection H as <-. cbn. symmetry. apply set_progress_own.
  - destruct (update_progress d p) as [d1|] eqn:E1; cbn in H; [|discriminate].
    destruct (update_progress_all d1 ps) as [rest|] eqn:E2; cbn in H; [|discriminate].
    injection H as <-. rewrite final_state_cons, (IH _ _ E2).
    apply update_progress_Ok in E1 as (_ & _ & ->). cbn.
    rewrite !foldr_max_init. unfold set_progress; cbn. do 2 f_equal; lia.
Qed.

(** X1.  On a coordinator whose [confirmed_decree] is at most its
    [last_decree], [update_progress] asserts in exactly two cases: the
    presented [confirmed_decree] is positive and below the one held, or it
    lies above both the held and the presented [last_decree]. *)
Theorem update_progress_fatal_iff (d : replica_duplicator) (p : duplication_progress) :
  confirmed_decree (_progress d) <= last_decree (_progress d) ->
  (is_fatal (update_progress d p) = true <->
     (0 < confirmed_decree p /\ confirmed_decree p < confirmed_decree (_progress d)) \/
     Z.max (last_decree (_progress d)) (last_decree p) < confirmed_decree p).
Proof.
  intros Hwf. destruct (update_progress d p) as [d'|why] eqn:E; cbn.
  - apply update_progress_Ok in E as (H1 & H2 & _). split; [discriminate|]. lia.
  - split; [|reflexivity]. intros _.
    destruct (decide ((0 < confirmed_decree p /\
                       confirmed_decree p < confirmed_decree (_progress d)) \/
                      Z.max (last_decree (_progress d)) (last_decree p)
                        < confirmed_decree p)) as [Hc|Hc]; [exact Hc|].
    exfalso.
    assert (Hok : update_progress d p =
                  Ok (set_progress d
                        (mk_progress (Z.max (last_decree (_progress d)) (last_decree p))
                                     (Z.max (confirmed_decree (_progress d))
                                            (confirmed_decree p))))).
    { apply update_progress_Ok. repeat split; lia. }
    rewrite Hok in E. discriminate.
Qed.

(** X2.  Presenting the same progress again changes nothing: a call that
    returned returns again, with the same coordinator. *)
Theorem update_progress_idempotent (d d' : replica_duplicator) (p : duplication_progress) :
  update_progress d p = Ok d' -> update_progress d' p = Ok d'.
Proof.
  intros H. apply update_progress_Ok in H as (H1 & H2 & ->).
  apply update_progress_Ok. cbn. repeat split; [lia|lia|].
  unfold set_progress; cbn. do 2 f_equal; lia.
Qed.

(** X3.  After any sequence of calls that all return, each watermark is the
    largest of the value held at the start and the values presented, and
    nothing else of the coordinator has changed: not its status, its
    identity, its remote address, nor the calls it has made. *)
Theorem update_progress_all_final
    (d : replica_duplicator) (ps : list duplication_progress) (ds : list replica_duplicator) :
  update_progress_all d ps = Ok ds ->
  confirmed_decree (_progress (final_state d ds))
    = foldr Z.max (confirmed_decree (_progress d)) (map confirmed_decree ps) /\
  last_decree (_progress (final_state d ds))
    = foldr Z.max (last_decree (_progress d)) (map last_decree ps) /\
  _status (final_state d ds) = _status d /\
  _id (final_state d ds) = _id d /\
  _gpid (final_state d ds) = _gpid d /\
  _remote_cluster_address (final_state d ds) = _remote_cluster_address d /\
  _last_recorded_confirmed_decree (final_state d ds) = _last_recorded_confirmed_decree d /\
  _calls (final_state d ds) = _calls d.
Proof.
  intros H. rewrite (update_progress_all_closed_form _ _ _ H). cbn. repeat split.
Qed.

(** X4.  The order in which progress is presented does not matter: two runs
    over the same values in different orders, if both return, end with the
    same coordinator. *)
Theorem update_progress_all_order_independent
    (d : replica_duplicator) (ps ps' : list duplication_progress)
    (ds ds' : list replica_duplicator) :
  ps ≡ₚ ps' ->
  update_progress_all d ps = Ok ds ->
  update_progress_all d ps' = Ok ds' ->
  final_state d ds = final_state d ds'.
Proof.
  intros Hperm H H'.
  rewrite (update_progress_all_closed_form _ _ _ H),
          (update_progress_all_closed_form _ _ _ H').
  rewrite (foldr_max_Permutation _ (map last_decree ps) (map last_decree ps')),
          (foldr_max_Permutation _ (map confirmed_decree ps) (map confirmed_decree ps'));
    [reflexivity| |]; by apply Permutation_map.
Qed.

(** ** Status changes and the life of a coordinator *)

Section DuplicatorLifecycle.

Variable status_name : duplication_status -> string.
Variable writer : json_object -> string.

Local Abbreviation new := (replica_duplicator_new status_name writer).
Local Abbreviation update_status := (update_status_if_needed status_name writer).
Local Abbreviation update_statuses := (update_status_all status_name writer).
Local Abbreviation delete := (replica_duplicator_delete status_name writer).

(** What [update_status_if_needed] returns, branch by branch. *)
Lemma update_status_if_needed_cases
    (r : replica) (d : replica_duplicator) (next_status : duplication_status) :
  exists (d' : replica_duplicator) (made : list call),
    update_status r d next_status = Ok d' /\
    _status d' = next_status /\
    _progress d' = _progress d /\
    _calls d' = _calls d ++ made /\
    Forall (fun c => is_timer_call c = false) made /\
    (made = [] \/
     (next_status = DS_START /\ _status d <> DS_START /\
      exists line, made = [call_ddebug line; call_run_pipeline]) \/
     (next_status = DS_PAUSE /\ _status d <> DS_PAUSE /\
      exists line, made = [call_ddebug line; call_pause])) /\
    (made = [] -> _status d = next_status \/ running_or_paused next_status = false).
Proof.
  unfold update_status_if_needed.
  destruct (decide (_status d = next_status)) as [E|E].
  - exists d, []. rewrite app_nil_r. repeat split; auto.
  - destruct next_status as [| |tag]; cbn.
    + eexists _, [_; _]. unfold start, emit; cbn. rewrite <- app_assoc.
      repeat split; [repeat constructor| |discriminate].
      right; left. eauto.
    + eexists _, [_; _]. unfold pause, emit; cbn. rewrite <- app_assoc.
      repeat split; [repeat constructor| |discriminate].
      right; right. eauto.
    + exists (set_status d (DS_OTHER tag)), []. cbn. rewrite app_nil_r.
      repeat split; auto.
Qed.

(** What the constructor leaves in a coordinator. *)
Lemma replica_duplicator_new_state
    (ent : duplication_entry) (r : replica) (d : replica_duplicator) :
  new ent r = Ok d ->
  _status d = status ent /\
  running_or_paused (_status d) = true /\
  timer_calls (_calls d) = [call_enqueue_timer LPC_REPLICATION_LOW METRICS_UPDATE_INTERVAL] /\
  (pipeline_state (_calls d) = Some true <-> _status d = DS_START) /\
  _last_recorded_confirmed_decree d = confirmed_decree (_progress d).
Proof.
  unfold replica_duplicator_new, dassert_replica.
  destruct (status ent) as [| |tag] eqn:Est; cbn;
    destruct (progress ent !! get_partition_index (rep_gpid r)) as [v|] eqn:Ev; cbn;
    try discriminate; intros [= <-]; cbn; rewrite ?Est; repeat split; auto; discriminate.
Qed.

Lemma pipeline_state_app (cs made : list call) :
  pipeline_state (cs ++ made) = foldl pipeline_told (pipeline_state cs) made.
Proof. unfold pipeline_state. apply foldl_app. Qed.

Lemma update_status_all_matches
    (requests : list (replica * duplication_status)) (d : replica_duplicator) :
  pipeline_matches_status d ->
  Forall (fun request => running_or_paused (snd request) = true) requests ->
  exists d' : replica_duplicator,
    update_statuses d requests = Ok d' /\
    _status d' = last_requested (_status d) requests /\
    _progress d' = _progress d /\
    pipeline_matches_status d'.
Proof.
  revert d. induction requests as [|[r s] requests IH]; intros d Hd Hall; cbn.
  - exists d. auto.
  - apply Forall_cons in Hall as [Hs Hall]. cbn in Hs.
    destruct (update_status_if_needed_cases r d s)
      as (d1 & made & -> & Hst & Hpr & Hcalls & _ & Hmade & Hnone). cbn.
    assert (Hd1 : pipeline_matches_status d1).
    { destruct Hd as [_ Hd]. split; [by rewrite Hst|].
      rewrite Hcalls, pipeline_state_app, Hst.
      destruct Hmade as [->|[(-> & _ & line & ->)|(-> & _ & line & ->)]]; cbn.
      - destruct (Hnone eq_refl) as [E|E]; [by rewrite <- E|congruence].
      - done.
      - split; discriminate. }
    destruct (IH d1 Hd1 Hall) as (d' & Hrun & Hlast & Hprog & Hd').
    exists d'. repeat split; try apply Hd'; auto.
    + rewrite Hlast, Hst. unfold last_requested.
      destruct requests as [|rq requests']; [reflexivity|].
      rewrite !last_cons. by destruct (last requests').
    + congruence.
Qed.

(** X5.  From construction on, through any sequence of requests for running
    or paused, every call returns, the status is the last one requested (the
    descriptor's when there was none), the progress is untouched, and the
    pipeline has last been told to run exactly when the status is running. *)
Theorem pipeline_runs_iff_status_running
    (ent : duplication_entry) (r : replica) (d : replica_duplicator)
    (requests : list (replica * duplication_status)) :
  new ent r = Ok d ->
  Forall (fun request => running_or_paused (snd request) = true) requests ->
  exists d' : replica_duplicator,
    update_statuses d requests = Ok d' /\
    _status d' = last_requested (status ent) requests /\
    _progress d' = _progress d /\
    (pipeline_state (_calls d') = Some true <-> _status d' = DS_START).
Proof.
  intros Hnew Hall.
  destruct (replica_duplicator_new_state _ _ _ Hnew) as (Hst & Hrp & _ & Hpipe & _).
  destruct (update_status_all_matches requests d (conj Hrp Hpipe) Hall)
    as (d' & Hrun & Hlast & Hprog & _ & Hd').
  exists d'. rewrite <- Hst. auto.
Qed.

(** X6.  Requesting a status twice is the same as requesting it once: the
    second call returns the coordinator unchanged, without logging and
    without touching the pipeline. *)
Theorem update_status_if_needed_idempotent
    (r r' : replica) (d d' : replica_duplicator) (next_status : duplication_status) :
  update_status r d next_status = Ok d' ->
  update_status r' d' next_status = Ok d'.
Proof.
  intros H.
  destruct (update_status_if_needed_cases r d next_status) as (d1 & made & H1 & Hst & _).
  rewrite H1 in H. injection H as <-.
  unfold update_status_if_needed. by rewrite decide_True.
Qed.

Lemma timer_calls_app (cs made : list call) :
  Forall (fun c => is_timer_call c = false) made ->
  timer_calls (cs ++ made) = timer_calls cs.
Proof.
  intros H. unfold timer_calls. rewrite List.filter_app.
  replace (List.filter is_timer_call made) with (@nil call); [apply app_nil_r|].
  induction H as [|c made Hc _ IH]; cbn; [reflexivity|]. by rewrite Hc.
Qed.

Lemma update_status_all_timer
    (requests : list (replica * duplication_status)) (d : replica_duplicator) :
  exists d' : replica_duplicator,
    update_statuses d requests = Ok d' /\
    timer_calls (_calls d') = timer_calls (_calls d).
Proof.
  revert d. induction requests as [|[r s] requests IH]; intros d; cbn.
  - exists d. auto.
  - destruct (update_status_if_needed_cases r d s)
      as (d1 & made & -> & _ & _ & Hcalls & Hmade & _). cbn.
    destruct (IH d1) as (d' & Hrun & Ht). exists d'. split; [exact Hrun|].
    rewrite Ht, Hcalls. by apply timer_calls_app.
Qed.

(** X7.  Over the life of a coordinator (construction, any status requests
    whatever, destruction) the metrics timer is enqueued once and cancelled
    once, in that order, the cancellation waiting for a running tick; and the
    destructor leaves the pipeline paused. *)
Theorem timer_enqueued_once_cancelled_once
    (ent : duplication_entry) (r r' : replica) (d : replica_duplicator)
    (requests : list (replica * duplication_status)) :
  new ent r = Ok d ->
  exists d' : replica_duplicator,
    update_statuses d requests = Ok d' /\
    timer_calls (_calls (delete r' d'))
      = [call_enqueue_timer LPC_REPLICATION_LOW METRICS_UPDATE_INTERVAL;
         call_cancel_timer true] /\
    pipeline_state (_calls (delete r' d')) = Some false.
Proof.
  intros Hnew.
  destruct (replica_duplicator_new_state _ _ _ Hnew) as (_ & _ & Htimer & _).
  destruct (update_status_all_timer requests d) as (d' & Hrun & Ht).
  exists d'. split; [exact Hrun|].
  unfold replica_duplicator_delete, pause, emit; cbn.
  rewrite <- !app_assoc. cbn. split.
  - unfold timer_calls. rewrite List.filter_app. cbn.
    fold (timer_calls (_calls d')). by rewrite Ht, Htimer.
  - by rewrite pipeline_state_app.
Qed.

End DuplicatorLifecycle.

(** ** The metrics timer *)

Lemma wrap64_in_range (z : Z) : int64_range z -> wrap64 z = z.
Proof.
  unfold int64_range, wrap64. intros H.
  rewrite Z.mod_small; lia.
Qed.

(** X8.  Start from a coordinator whose recorded confirmed decree is
    non-negative and at most its [confirmed_decree], and run progress
    updates and timer ticks in any order.  If the run returns, no tick has
    reported a negative growth, the growths reported add up to the advance of
    the recorded decree, and the recorded decree is still at most
    [confirmed_decree]. *)
Theorem timer_reports_confirmed_growth
    (d d' : replica_duplicator) (ops : list operation) (samples : list metrics_sample) :
  0 <= _last_recorded_confirmed_decree d ->
  _last_recorded_confirmed_decree d <= confirmed_decree (_progress d) ->
  int64_range (confirmed_decree (_progress d)) ->
  Forall operation_in_range ops ->
  run_operations d ops = Ok (d', samples) ->
  Forall (fun sample => 0 <= increased_confirmed_decree sample) samples /\
  sum_increased samples
    = _last_recorded_confirmed_decree d' - _last_recorded_confirmed_decree d /\
  _last_recorded_confirmed_decree d' <= confirmed_decree (_progress d').
Proof.
  revert d samples.
  induction ops as [|[p|r] ops IH]; intros d samples Hpos Hle Hrange Hall Hrun; cbn in Hrun.
  - injection Hrun as <- <-. cbn. split; [constructor|]. split; lia.
  - apply Forall_cons in Hall as [Hp Hall]. cbn in Hp.
    destruct (update_progress d p) as [d1|] eqn:E1; cbn in Hrun; [|discriminate].
    apply update_progress_Ok in E1 as (_ & _ & ->).
    apply IH in Hrun; cbn; try assumption; try lia.
    unfold int64_range in *. lia.
  - apply Forall_cons in Hall as [_ Hall]. unfold get_progress in Hrun.
    destruct (run_operations _ ops) as [[d2 rest]|] eqn:E2; cbn in Hrun; [|discriminate].
    injection Hrun as <- <-.
    apply IH in E2; [|cbn; lia|cbn; lia|exact Hrange|exact Hall].
    cbn in E2. destruct E2 as (Hall' & Hsum & Hle').
    assert (Hw : wrap64 (confirmed_decree (_progress d) - _last_recorded_confirmed_decree d)
                 = confirmed_decree (_progress d) - _last_recorded_confirmed_decree d).
    { apply wrap64_in_range. unfold int64_range in *. lia. }
    split; [|split; [|exact Hle']].
    + constructor; [cbn; rewrite Hw; lia|exact Hall'].
    + cbn. fold (sum_increased rest). rewrite Hw, Hsum. lia.
Qed.

(** ** Further properties of [verify_start_decree] and [to_string] *)

(** X9.  Garbage collection only makes [verify_start_decree] fail more: once
    it reports corruption for a start decree, it reports corruption for that
    and every earlier start decree whenever the private log's
    garbage-collected decree is the same or higher, whatever the
    coordinator's progress is by then. *)
Theorem verify_start_decree_stays_corrupt
    (r r' : replica) (d d' : replica_duplicator) (start_decree start_decree' : decree) :
  rep_plog_max_gced_decree r (rep_gpid r) <= rep_plog_max_gced_decree r' (rep_gpid r') ->
  start_decree' <= start_decree ->
  error_s_code (verify_start_decree r d start_decree) = ERR_CORRUPTION ->
  error_s_code (verify_start_decree r' d' start_decree') = ERR_CORRUPTION.
Proof.
  unfold verify_start_decree, get_max_gced_decree. intros Hgc Hstart.
  destruct (rep_plog_max_gced_decree r (rep_gpid r) >=? start_decree) eqn:E; cbn;
    [|discriminate].
  intros _. apply Z.geb_le in E.
  replace (rep_plog_max_gced_decree r' (rep_gpid r') >=? start_decree') with true;
    [reflexivity|].
  symmetry. apply Z.geb_le. lia.
Qed.





(** ** The further properties at sample values *)

Lemma update_progress_fatal_iff_witness :
  is_fatal (update_progress (sample_duplicator 105 100) (mk_progress 105 50)) = true <->
  (0 < confirmed_decree (mk_progress 105 50) /\
   confirmed_decree (mk_progress 105 50)
     < confirmed_decree (_progress (sample_duplicator 105 100))) \/
  Z.max (last_decree (_progress (sample_duplicator 105 100))) (last_decree (mk_progress 105 50))
    < confirmed_decree (mk_progress 105 50).
Proof.
  apply (update_progress_fatal_iff (sample_duplicator 105 100) (mk_progress 105 50)).
  cbn. lia.
Defined.

Lemma update_progress_idempotent_witness :
  update_progress (sample_duplicator 105 105) (mk_progress 105 105)
    = Ok (sample_duplicator 105 105).
Proof.
  apply (update_progress_idempotent (sample_duplicator 100 100) (sample_duplicator 105 105)
                                    (mk_progress 105 105)).
  reflexivity.
Defined.

Lemma update_progress_all_final_witness :
  confirmed_decree
    (_progress (final_state (sample_duplicator 100 100)
                            [sample_duplicator 105 100; sample_duplicator 105 105]))
    = foldr Z.max (confirmed_decree (_progress (sample_duplicator 100 100)))
            (map confirmed_decree [mk_progress 105 (-1); mk_progress 105 105]).
Proof.
  apply (update_progress_all_final
           (sample_duplicator 100 100)
           [mk_progress 105 (-1); mk_progress 105 105]
           [sample_duplicator 105 100; sample_duplicator 105 105]).
  reflexivity.
Defined.

Lemma update_progress_all_order_independent_witness :
  final_state (sample_duplicator 100 100)
              [sample_duplicator 105 100; sample_duplicator 105 105]
  = final_state (sample_duplicator 100 100)
                [sample_duplicator 105 105; sample_duplicator 105 105].
Proof.
  apply (update_progress_all_order_independent
           (sample_duplicator 100 100)
           [mk_progress 105 (-1); mk_progress 105 105]
           [mk_progress 105 105; mk_progress 105 (-1)]).
  - apply perm_swap.
  - reflexivity.
  - reflexivity.
Defined.

Lemma pipeline_runs_iff_status_running_witness :
  exists d : replica_duplicator,
    replica_duplicator_new sample_status_name sample_writer (sample_entry DS_PAUSE) sample_replica
      = Ok d /\
    exists d' : replica_duplicator,
      update_status_all sample_status_name sample_writer d
        [(sample_replica, DS_START); (sample_replica, DS_START); (sample_replica, DS_PAUSE)]
        = Ok d' /\
      _status d' = last_requested (status (sample_entry DS_PAUSE))
                     [(sample_replica, DS_START); (sample_replica, DS_START);
                      (sample_replica, DS_PAUSE)] /\
      _progress d' = _progress d /\
      (pipeline_state (_calls d') = Some true <-> _status d' = DS_START).
Proof.
  eexists. split; [reflexivity|].
  apply (pipeline_runs_iff_status_running
           sample_status_name sample_writer (sample_entry DS_PAUSE) sample_replica).
  - reflexivity.
  - repeat constructor.
Defined.

Lemma update_status_if_needed_idempotent_witness :
  exists d' : replica_duplicator,
    update_status_if_needed sample_status_name sample_writer sample_replica
                            (sample_duplicator 105 100) DS_PAUSE = Ok d' /\
    update_status_if_needed sample_status_name sample_writer sample_replica d' DS_PAUSE
      = Ok d'.
Proof.
  eexists. split; [reflexivity|].
  apply (update_status_if_needed_idempotent
           sample_status_name sample_writer sample_replica sample_replica
           (sample_duplicator 105 100)).
  reflexivity.
Defined.

Lemma timer_enqueued_once_cancelled_once_witness :
  exists d : replica_duplicator,
    replica_duplicator_new sample_status_name sample_writer (sample_entry DS_START) sample_replica
      = Ok d /\
    exists d' : replica_duplicator,
      update_status_all sample_status_name sample_writer d
        [(sample_replica, DS_PAUSE); (sample_replica, DS_OTHER 0); (sample_replica, DS_START)]
        = Ok d' /\
      timer_calls (_calls (replica_duplicator_delete sample_status_name sample_writer
                                                      sample_replica d'))
        = [call_enqueue_timer LPC_REPLICATION_LOW METRICS_UPDATE_INTERVAL;
           call_cancel_timer true] /\
      pipeline_state (_calls (replica_duplicator_delete sample_status_name sample_writer
                                                         sample_replica d'))
        = Some false.
Proof.
  eexists. split; [reflexivity|].
  apply (timer_enqueued_once_cancelled_once
           sample_status_name sample_writer (sample_entry DS_START) sample_replica).
  reflexivity.
Defined.

Lemma timer_reports_confirmed_growth_witness :
  exists (d' : replica_duplicator) (samples : list metrics_sample),
    run_operations (sample_duplicator 100 100)
      [ op_timer_tick sample_replica;
        op_update_progress (mk_progress 105 (-1));
        op_update_progress (mk_progress 105 105);
        op_timer_tick sample_replica;
        op_timer_tick sample_replica ]
      = Ok (d', samples) /\
    Forall (fun sample => 0 <= increased_confirmed_decree sample) samples /\
    sum_increased samples
      = _last_recorded_confirmed_decree d'
        - _last_recorded_confirmed_decree (sample_duplicator 100 100) /\
    _last_recorded_confirmed_decree d' <= confirmed_decree (_progress d').
Proof.
  eexists _, _. split; [reflexivity|].
  apply (timer_reports_confirmed_growth
           (sample_duplicator 100 100) _
           [ op_timer_tick sample_replica;
             op_update_progress (mk_progress 105 (-1));
             op_update_progress (mk_progress 105 105);
             op_timer_tick sample_replica;
             op_timer_tick sample_replica ]).
  - cbn. lia.
  - cbn. lia.
  - unfold int64_range. cbn. lia.
  - repeat (apply Forall_cons_2; [unfold operation_in_range, int64_range; cbn; try lia; exact I|]).
    apply Forall_nil_2.
  - reflexivity.
Defined.

Lemma verify_start_decree_stays_corrupt_witness :
  error_s_code (verify_start_decree (mk_replica (mk_gpid 2 1) "temp" 110 (fun _ => 45))
                                    (sample_duplicator 105 105) 30)
    = ERR_CORRUPTION.
Proof.
  apply (verify_start_decree_stays_corrupt
           sample_replica _ (sample_duplicator 105 100) _ 40 30).
  - cbn. lia.
  - lia.
  - reflexivity.
Defined.
